(** * The subreddit fan-out publisher (lambda handler), embedded in Rocq

    The handler validates three environment variables, obtains a list of
    subreddit identifiers either from a DynamoDB scan or from a
    comma-separated environment variable, and publishes one EventBridge
    event per identifier.

    Modelling choices:
    - [process.env] is a finite map from variable names to strings; an unset
      variable reads as [None] (JavaScript [undefined]).
    - Strings are Rocq strings standing for UTF-8 text.  The comma, the double
      quote, the backslash and the control characters are ASCII, so splitting
      and JSON quoting act on single bytes.
    - The two AWS clients are functions giving the service's reply to a call:
      either a response or a raised error.  The reply of the event bus may
      depend on how many put calls were made before and on the request.
    - An invocation threads a state holding the sequence of calls made on the
      AWS clients and the lines written to the console; a computation either
      returns a value or raises an error.
    - Writing to the console, and the [JSON.stringify] of a response or of
      an error inside a console line, do not raise; a console line is kept
      as the value it reports.
    - A scan response holds its list of rows; a row is a finite map from
      attribute names to attribute values, and reading [.S] of an attribute
      the row does not hold raises a [TypeError]. *)

From Stdlib Require Import ZArith Ascii String.
From stdpp Require Import base option list strings gmap.

Local Open Scope string_scope.
Local Open Scope list_scope.

(** ** JavaScript values and primitives used by the handler *)

Module JS.

(** The values an identifier can take: a string, or [undefined] when a
    property is read that the object does not hold. *)
Inductive value : Type :=
| undefined : value
| str : string → value.

(** The errors that can be raised: [Error(message)] built by the handler
    itself, the [TypeError] of reading a property of [undefined], and an
    error raised by an AWS client (code and message). *)
Inductive error : Type :=
| Error : string → error
| TypeError_reading : string → error
| AWSError : string → string → error.

(** Truthiness of [process.env.X]: unset and the empty string are falsy. *)
Definition truthy (v : option string) : bool :=
  match v with
  | Some (String _ _) => true
  | _ => false
  end.

(** [v == 'lit'] for a value that is a string or [undefined]. *)
Definition loose_eq (v : option string) (lit : string) : bool :=
  match v with
  | Some s => bool_decide (s = lit)
  | None => false
  end.

(** [s.split(sep)] for a one-character separator: every occurrence of the
    separator cuts, so the result has one more element than there are
    separators in [s], and the split of the empty string is the one-element list holding it. *)
Fixpoint split (sep : ascii) (s : string) : list string :=
  match s with
  | EmptyString => [EmptyString]
  | String c rest =>
      if Ascii.eqb c sep then EmptyString :: split sep rest
      else match split sep rest with
           | tok :: toks => String c tok :: toks
           | [] => [String c EmptyString]
           end
  end.

(** [toks.join(sep)], used to state what [split] inverts. *)
Fixpoint join (sep : ascii) (toks : list string) : string :=
  match toks with
  | [] => EmptyString
  | [tok] => tok
  | tok :: rest => tok +:+ String sep (join sep rest)
  end.

(** [s.includes(c)] for a one-character [c]. *)
Fixpoint includes (c : ascii) (s : string) : bool :=
  match s with
  | EmptyString => false
  | String c' rest => Ascii.eqb c' c || includes c rest
  end.

(** Template-literal conversion [`${v}`]. *)
Definition to_string (v : value) : string :=
  match v with
  | undefined => "undefined"
  | str s => s
  end.

(** Writes a text that holds double quotes with apostrophes in their
    place. *)
Fixpoint dq (s : string) : string :=
  match s with
  | EmptyString => EmptyString
  | String c rest =>
      String (if Ascii.eqb c "'" then ascii_of_N 34 else c) (dq rest)
  end.

(** The number of occurrences of [c] in [s]. *)
Fixpoint count (c : ascii) (s : string) : nat :=
  match s with
  | EmptyString => 0
  | String c' rest => (if Ascii.eqb c' c then 1 else 0) + count c rest
  end.

(** [p] holds of every character of [s]. *)
Fixpoint every (p : ascii → bool) (s : string) : bool :=
  match s with
  | EmptyString => true
  | String c rest => p c && every p rest
  end.

End JS.

(** ** [JSON.stringify] on flat records of strings *)

Module JSON.

Definition dquote : ascii := ascii_of_N 34.
Definition backslash : ascii := ascii_of_N 92.

Definition hex_digit (n : N) : ascii :=
  if (n <? 10)%N then ascii_of_N (48 + n) else ascii_of_N (87 + n).

(** Escape of one character inside a JSON string literal. *)
Definition escape (c : ascii) : string :=
  let n := N_of_ascii c in
  if (n =? 34)%N then String backslash (String dquote EmptyString)
  else if (n =? 92)%N then String backslash (String backslash EmptyString)
  else if (n =? 8)%N then "\b"
  else if (n =? 9)%N then "\t"
  else if (n =? 10)%N then "\n"
  else if (n =? 12)%N then "\f"
  else if (n =? 13)%N then "\r"
  else if (n <? 32)%N then
    "\u00" +:+ String (hex_digit (n / 16)) (String (hex_digit (n mod 16)) EmptyString)
  else String c EmptyString.

Fixpoint escape_all (s : string) : string :=
  match s with
  | EmptyString => EmptyString
  | String c rest => escape c +:+ escape_all rest
  end.

Definition quote (s : string) : string :=
  String dquote (escape_all s) +:+ String dquote EmptyString.

(** A character that [escape] leaves as it is. *)
Definition plain (c : ascii) : bool :=
  let n := N_of_ascii c in
  (32 <=? n)%N && negb (n =? 34)%N && negb (n =? 92)%N.

Definition hex_value (c : ascii) : N :=
  let n := N_of_ascii c in
  if (n <? 58)%N then (n - 48)%N else (n - 87)%N.

Definition cons_fst (c : ascii) (r : string * string) : string * string :=
  (String c r.1, r.2).

(** The reader of the inside of a string literal, as a JSON parser does it:
    it undoes the escapes up to the closing double quote and gives the text
    read and what follows the quote.  It states that [quote] loses
    nothing. *)
Fixpoint read_literal (s : string) : option (string * string) :=
  match s with
  | EmptyString => None
  | String c r =>
      if (N_of_ascii c =? 34)%N then Some (EmptyString, r)
      else if (N_of_ascii c =? 92)%N then
        match r with
        | EmptyString => None
        | String d r' =>
            let k := N_of_ascii d in
            if (k =? 117)%N then
              match r' with
              | String _ (String _ (String h (String l r''))) =>
                  cons_fst (ascii_of_N (16 * hex_value h + hex_value l))
                    <$> read_literal r''
              | _ => None
              end
            else
              cons_fst
                (if (k =? 98)%N then ascii_of_N 8
                 else if (k =? 116)%N then ascii_of_N 9
                 else if (k =? 110)%N then ascii_of_N 10
                 else if (k =? 102)%N then ascii_of_N 12
                 else if (k =? 114)%N then ascii_of_N 13
                 else d)
                <$> read_literal r'
        end
      else cons_fst c <$> read_literal r
  end.

End JSON.

Module JSONRecord.

(** One [key:value] member; a member whose value is [undefined] is left
    out by [JSON.stringify]. *)
Definition member (kv : string * JS.value) : option string :=
  match kv.2 with
  | JS.undefined => None
  | JS.str s => Some (JSON.quote kv.1 +:+ ":" +:+ JSON.quote s)
  end.

(** [JSON.stringify] of an object literal whose members are strings. *)
Definition stringify (fields : list (string * JS.value)) : string :=
  "{" +:+ JS.join "," (omap member fields) +:+ "}".

End JSONRecord.

(** ** Requests and responses of the two AWS clients *)

Module EventBridge.

Record PutEventsRequestEntry : Type := {
  EventBusName : option string;
  DetailType : string;
  Source : option string;
  Detail : string
}.

Record PutEventsRequest : Type := { Entries : list PutEventsRequestEntry }.

(** Only [FailedEntryCount] is read by the handler; it is [None] when the
    response does not hold the property. *)
Record PutEventsResponse : Type := { FailedEntryCount : option Z }.

End EventBridge.

Module DynamoDB.

Inductive AttributeValue : Type :=
| AttrS : string → AttributeValue
| AttrN : string → AttributeValue
| AttrBOOL : bool → AttributeValue
| AttrNULL : AttributeValue.

(** [attr.S]: the string of a string attribute, [undefined] otherwise. *)
Definition get_S (attr : AttributeValue) : JS.value :=
  match attr with
  | AttrS s => JS.str s
  | _ => JS.undefined
  end.

Record ScanInput : Type := { TableName : option string }.

Record ScanOutput : Type := { Items : list (gmap string AttributeValue) }.

End DynamoDB.

Import EventBridge DynamoDB.

(** ** Invocation state and the computations over it *)

Inductive call : Type :=
| ScanCall : ScanInput → call
| PutEventsCall : PutEventsRequest → call.

(** The lines written to the console, by level and by what they report. *)
Inductive console_line : Type :=
| debug_publish_response : PutEventsResponse → console_line
| error_failed_to_publish : string → console_line
| error_publishing : JS.error → console_line
| debug_ddb_response : ScanOutput → console_line
| error_ddb : JS.error → console_line
| debug_publishing : list string → console_line.

Definition is_error_line (l : console_line) : bool :=
  match l with
  | error_failed_to_publish _ | error_publishing _ | error_ddb _ => true
  | _ => false
  end.

Record state : Type := {
  calls : list call;
  console : list console_line
}.

Definition start : state := {| calls := []; console := [] |}.

(** The put requests among the calls made so far, oldest first. *)
Definition put_requests (cs : list call) : list PutEventsRequest :=
  omap (λ c, match c with PutEventsCall r => Some r | ScanCall _ => None end) cs.

Inductive outcome (A : Type) : Type :=
| Returns : A → outcome A
| Raises : JS.error → outcome A.

Arguments Returns {A} _.
Arguments Raises {A} _.

Definition M (A : Type) : Type := state → outcome A * state.

Global Instance M_ret : MRet M := λ A a st, (Returns a, st).

Global Instance M_bind : MBind M := λ A B k m st,
  match m st with
  | (Returns a, st') => k a st'
  | (Raises e, st') => (Raises e, st')
  end.

Definition throw {A} (e : JS.error) : M A := λ st, (Raises e, st).

(** [try { body } catch (error) { handler }] *)
Definition try_catch {A} (body : M A) (handler : JS.error → M A) : M A :=
  λ st, match body st with
        | (Returns a, st') => (Returns a, st')
        | (Raises e, st') => handler e st'
        end.

Definition console_write (l : console_line) : M unit :=
  λ st, (Returns (), {| calls := calls st; console := console st ++ [l] |}).

(** [for (const x of xs) body] *)
Fixpoint for_of {A} (xs : list A) (body : A → M unit) : M unit :=
  match xs with
  | [] => mret ()
  | x :: rest => body x;; for_of rest body
  end.

(** [xs.map(f)] for a callback that may raise. *)
Fixpoint array_map {A B} (f : A → outcome B) (xs : list A) : outcome (list B) :=
  match xs with
  | [] => Returns []
  | x :: rest =>
      match f x with
      | Raises e => Raises e
      | Returns y =>
          match array_map f rest with
          | Raises e => Raises e
          | Returns ys => Returns (y :: ys)
          end
      end
  end.

Definition lift {A} (o : outcome A) : M A := λ st, (o, st).

(** ** The handler *)

Section Lambda.

(** [process.env] *)
Context (env : gmap string string).
(** Reply of the event bus to a put call, given the number of put calls
    made before it. *)
Context (eventBridge : nat → PutEventsRequest → outcome PutEventsResponse).
(** Reply of the table service to a scan call. *)
Context (ddb : ScanInput → outcome ScanOutput).

(** [eventBridge.putEvents(request).promise()], awaited *)
Definition putEvents (request : PutEventsRequest) : M PutEventsResponse :=
  λ st, (eventBridge (length (put_requests (calls st))) request,
         {| calls := calls st ++ [PutEventsCall request];
            console := console st |}).

(** [ddb.scan(params).promise()], awaited *)
Definition scan (params : ScanInput) : M ScanOutput :=
  λ st, (ddb params,
         {| calls := calls st ++ [ScanCall params];
            console := console st |}).

(** [count > 0] for a count that may be [undefined] *)
Definition gt_zero (count : option Z) : bool :=
  match count with
  | Some n => (0 <? n)%Z
  | None => false
  end.

Definition publishSubReddits (subreddits : list JS.value) : M unit :=
  for_of subreddits (λ subreddit,
    try_catch
      (response ← putEvents
         {| Entries := [
              {| EventBusName := env !! "EVENT_BUS_NAME";
                 DetailType := "subreddit";
                 Source := env !! "SUBREDDIT_PUBLISH_NAMESPACE";
                 Detail := JSONRecord.stringify
                             [("name", subreddit);
                              ("type", JS.str "subreddit")] |} ] |};
       console_write (debug_publish_response response);;
       if gt_zero (FailedEntryCount response)
       then console_write (error_failed_to_publish (JS.to_string subreddit))
       else mret ())
      (λ error,
         console_write (error_publishing error);;
         throw error)).

(** [item.SUB_REDDIT.S] *)
Definition item_SUB_REDDIT_S (item : gmap string AttributeValue)
  : outcome JS.value :=
  match item !! "SUB_REDDIT" with
  | Some attr => Returns (get_S attr)
  | None => Raises (JS.TypeError_reading "S")
  end.

Definition no_source_message : string :=
  "Neither environment variable nor Dynamodb setup for subreddits to follow".

Definition getSubRedditList : M (list JS.value) :=
  if JS.loose_eq (env !! "READ_SUBREDDITS_FROM_DDB") "TRUE" then
    let ddbParams := {| TableName := env !! "SOURCE_DDB_TABLE" |} in
    try_catch
      (ddbResponse ← scan ddbParams;
       console_write (debug_ddb_response ddbResponse);;
       lift (array_map item_SUB_REDDIT_S (Items ddbResponse)))
      (λ ddbError,
         console_write (error_ddb ddbError);;
         throw ddbError)
  else
    match env !! "SUBREDDITS_TO_FOLLOW" with
    | Some followed =>
        if JS.truthy (Some followed) && bool_decide (0 < String.length followed)%nat
        then
          let subreddits := JS.split "," followed in
          console_write (debug_publishing subreddits);;
          mret (JS.str <$> subreddits)
        else throw (JS.Error no_source_message)
    | None => throw (JS.Error no_source_message)
    end.

Definition env_not_set_message : string :=
  JS.dq "Some or all of environment variables not set. Please check if 'EVENT_BUS_NAME', 'SUBREDDIT_PUBLISH_NAMESPACE', and  'SOURCE_DDB_TABLE' variables are set with appropriate values".

Definition checkEnvSetup : M unit :=
  if negb (JS.truthy (env !! "EVENT_BUS_NAME")
           && JS.truthy (env !! "SUBREDDIT_PUBLISH_NAMESPACE")
           && JS.truthy (env !! "SOURCE_DDB_TABLE"))
  then throw (JS.Error env_not_set_message)
  else mret ().

(** The invocation event is not read. *)
Definition handler : M unit :=
  checkEnvSetup;;
  subreddits ← getSubRedditList;
  publishSubReddits subreddits.

End Lambda.

(** ** What one run of the publisher does, as functions of the bus replies *)

Section Run_functions.

Context (env : gmap string string).
Context (eventBridge : nat → PutEventsRequest → outcome PutEventsResponse).

(** The put request built for one identifier. *)
Definition event_for (subreddit : JS.value) : PutEventsRequest :=
  {| Entries := [
       {| EventBusName := env !! "EVENT_BUS_NAME";
          DetailType := "subreddit";
          Source := env !! "SUBREDDIT_PUBLISH_NAMESPACE";
          Detail := JSONRecord.stringify
                      [("name", subreddit); ("type", JS.str "subreddit")] |} ] |}.

(** The identifiers for which a put call is made when the first of them
    is the [n]-th put of the invocation: all up to and including the first
    whose call raises. *)
Fixpoint attempted (n : nat) (subreddits : list JS.value) : list JS.value :=
  match subreddits with
  | [] => []
  | s :: rest =>
      s :: match eventBridge n (event_for s) with
           | Returns _ => attempted (S n) rest
           | Raises _ => []
           end
  end.

(** The first error raised by the bus, if any. *)
Fixpoint first_raise (n : nat) (subreddits : list JS.value) : outcome () :=
  match subreddits with
  | [] => Returns ()
  | s :: rest =>
      match eventBridge n (event_for s) with
      | Returns _ => first_raise (S n) rest
      | Raises e => Raises e
      end
  end.

(** The identifiers whose call returned a positive failed-entry count. *)
Fixpoint rejected (n : nat) (subreddits : list JS.value) : list JS.value :=
  match subreddits with
  | [] => []
  | s :: rest =>
      match eventBridge n (event_for s) with
      | Returns r =>
          (if gt_zero (FailedEntryCount r) then [s] else [])
          ++ rejected (S n) rest
      | Raises _ => []
      end
  end.

(** The console lines of the loop. *)
Fixpoint publish_lines (n : nat) (subreddits : list JS.value)
  : list console_line :=
  match subreddits with
  | [] => []
  | s :: rest =>
      match eventBridge n (event_for s) with
      | Returns r =>
          debug_publish_response r
          :: (if gt_zero (FailedEntryCount r)
              then [error_failed_to_publish (JS.to_string s)] else [])
          ++ publish_lines (S n) rest
      | Raises e => [error_publishing e]
      end
  end.

End Run_functions.

(** ** Predicates on the configuration and on the rows *)

(** The three required variables are set and not empty. *)
Definition env_is_set (env : gmap string string) : Prop :=
  JS.truthy (env !! "EVENT_BUS_NAME") = true
  ∧ JS.truthy (env !! "SUBREDDIT_PUBLISH_NAMESPACE") = true
  ∧ JS.truthy (env !! "SOURCE_DDB_TABLE") = true.

Definition missing_or_empty (v : option string) : Prop :=
  v = None ∨ v = Some EmptyString.

(** The string attribute of a row that holds it. *)
Definition SUB_REDDIT_S (item : gmap string AttributeValue) : JS.value :=
  match item !! "SUB_REDDIT" with
  | Some attr => get_S attr
  | None => JS.undefined
  end.

(** ** The scenario of the specification, used to instantiate the theorems *)

Definition scenario_env : gmap string string :=
  list_to_map [("EVENT_BUS_NAME", "bus1");
               ("SUBREDDIT_PUBLISH_NAMESPACE", "ns1");
               ("SOURCE_DDB_TABLE", "t1");
               ("SUBREDDITS_TO_FOLLOW", "sub1,sub2")].

(** A bus that accepts every entry. *)
Definition accepting_bus : nat → PutEventsRequest → outcome PutEventsResponse :=
  λ _ _, Returns {| FailedEntryCount := Some 0%Z |}.

(** A bus that rejects the entry of its second call and accepts the others. *)
Definition rejecting_second_bus
  : nat → PutEventsRequest → outcome PutEventsResponse :=
  λ n _, Returns {| FailedEntryCount := Some (if Nat.eqb n 1 then 1 else 0)%Z |}.

(** A bus throttled from its second call on. *)
Definition throttled_bus : nat → PutEventsRequest → outcome PutEventsResponse :=
  λ n _, if Nat.ltb n 1 then Returns {| FailedEntryCount := Some 0%Z |}
         else Raises (JS.AWSError "ThrottlingException" "Rate exceeded").

Definition three_subreddits : list JS.value :=
  [JS.str "aws"; JS.str "news"; JS.str "science"].

Definition env_without_table : gmap string string :=
  list_to_map [("EVENT_BUS_NAME", "bus1");
               ("SUBREDDIT_PUBLISH_NAMESPACE", "ns1");
               ("SUBREDDITS_TO_FOLLOW", "sub1,sub2")].

Definition table_env : gmap string string :=
  <["READ_SUBREDDITS_FROM_DDB" := "TRUE"]> scenario_env.

(** Three rows, two of them with the same identifier. *)
Definition scanned_rows : list (gmap string AttributeValue) :=
  [ {[ "SUB_REDDIT" := AttrS "news" ]};
    {[ "SUB_REDDIT" := AttrS "aws" ]};
    list_to_map [("SUB_REDDIT", AttrS "news"); ("FOLLOWERS", AttrN "12")] ].

Definition table_ddb : ScanInput → outcome ScanOutput :=
  λ params, match TableName params with
            | Some "t1" => Returns {| Items := scanned_rows |}
            | _ => Raises (JS.AWSError "ResourceNotFoundException"
                                       "Requested resource not found")
            end.

Definition empty_ddb : ScanInput → outcome ScanOutput :=
  λ _, Returns {| Items := [] |}.

Definition failing_ddb : ScanInput → outcome ScanOutput :=
  λ _, Raises (JS.AWSError "AccessDeniedException" "not authorized to Scan").

(** Three rows, the second without the attribute. *)
Definition rows_with_gap : list (gmap string AttributeValue) :=
  [ {[ "SUB_REDDIT" := AttrS "news" ]};
    {[ "NAME" := AttrS "aws" ]};
    {[ "SUB_REDDIT" := AttrS "science" ]} ].

(** A table whose scan returns those rows. *)
Definition gap_ddb : ScanInput → outcome ScanOutput :=
  λ _, Returns {| Items := rows_with_gap |}.

Definition abc_env : gmap string string :=
  <["SUBREDDITS_TO_FOLLOW" := "a,b,c"]> scenario_env.

Definition no_list_env : gmap string string :=
  delete "SUBREDDITS_TO_FOLLOW" scenario_env.

Definition commas_env : gmap string string :=
  <["SUBREDDITS_TO_FOLLOW" := "a,,b,"]> scenario_env.

(** ** Facts on the run functions *)

Section Publisher_facts.

Context (env : gmap string string).
Context (eventBridge : nat → PutEventsRequest → outcome PutEventsResponse).

Local Abbreviation event := (event_for env).

Lemma put_requests_snoc cs r :
  put_requests (cs ++ [PutEventsCall r]) = put_requests cs ++ [r].
Proof. unfold put_requests. by rewrite omap_app. Qed.

Lemma put_requests_puts (rs : list PutEventsRequest) :
  put_requests (PutEventsCall <$> rs) = rs.
Proof.
  induction rs as [|r rs IH]; [done|].
  change (r :: put_requests (PutEventsCall <$> rs) = r :: rs). by rewrite IH.
Qed.

Lemma put_requests_snoc_all cs (rs : list PutEventsRequest) :
  put_requests (cs ++ (PutEventsCall <$> rs)) = put_requests cs ++ rs.
Proof.
  unfold put_requests at 1. rewrite omap_app.
  fold (put_requests cs) (put_requests (PutEventsCall <$> rs)).
  by rewrite put_requests_puts.
Qed.

Lemma put_requests_snoc_scan cs i :
  put_requests (cs ++ [ScanCall i]) = put_requests cs.
Proof. unfold put_requests. rewrite omap_app. cbn. by rewrite app_nil_r. Qed.

(** The run equation of the loop. *)
Lemma publishSubReddits_run subreddits st :
  let n := length (put_requests (calls st)) in
  publishSubReddits env eventBridge subreddits st =
    (first_raise env eventBridge n subreddits,
     {| calls := calls st
                 ++ (PutEventsCall <$> (event <$> attempted env eventBridge n subreddits));
        console := console st ++ publish_lines env eventBridge n subreddits |}).
Proof.
  revert st. induction subreddits as [|s rest IH]; intros st n.
  - cbn. rewrite !app_nil_r. by destruct st.
  - unfold publishSubReddits in *. cbn [for_of].
    unfold mbind, M_bind, try_catch, putEvents at 1. cbn [calls console].
    fold (event s). fold n.
    destruct (eventBridge n (event s)) as [r|e] eqn:Hreply.
    + assert (Hn : length (put_requests (calls st ++ [PutEventsCall (event s)]))
                   = S n).
      { rewrite put_requests_snoc, length_app. cbn. subst n. lia. }
      unfold console_write at 1. cbn [calls console].
      destruct (gt_zero (FailedEntryCount r)) eqn:Hgt.
      * unfold console_write at 1. cbn [calls console].
        rewrite IH. cbn [calls console]. rewrite Hn.
        cbn [first_raise attempted publish_lines]. rewrite Hreply, Hgt.
        cbn. by rewrite <- !app_assoc.
      * unfold mret, M_ret at 1.
        rewrite IH. cbn [calls console]. rewrite Hn.
        cbn [first_raise attempted publish_lines]. rewrite Hreply, Hgt.
        cbn. by rewrite <- !app_assoc.
    + unfold console_write, throw. cbn [calls console].
      cbn [first_raise attempted publish_lines]. by rewrite Hreply.
Qed.

(** When no call raises, every identifier is attempted and nothing is
    raised. *)
Lemma attempted_all_return subreddits : ∀ n,
  (∀ i s, subreddits !! i = Some s →
          ∃ r, eventBridge (n + i) (event s) = Returns r) →
  attempted env eventBridge n subreddits = subreddits
  ∧ first_raise env eventBridge n subreddits = Returns ().
Proof.
  induction subreddits as [|s rest IH]; intros n Hret; [done|].
  destruct (Hret 0 s eq_refl) as [r Hr]. rewrite Nat.add_0_r in Hr.
  destruct (IH (S n)) as [Hatt Hfirst].
  { intros i s' Hi. rewrite Nat.add_succ_comm. by apply (Hret (S i)). }
  cbn. by rewrite Hr, Hatt, Hfirst.
Qed.

(** When the call at position [k] is the first to raise, the attempted
    identifiers are the first [k + 1] and its error is the one raised. *)
Lemma attempted_raise_at subreddits : ∀ n k s e,
  subreddits !! k = Some s →
  (∀ i s', i < k → subreddits !! i = Some s' →
           ∃ r, eventBridge (n + i) (event s') = Returns r) →
  eventBridge (n + k) (event s) = Raises e →
  attempted env eventBridge n subreddits = take (S k) subreddits
  ∧ first_raise env eventBridge n subreddits = Raises e
  ∧ last (publish_lines env eventBridge n subreddits)
    = Some (error_publishing e).
Proof.
  induction subreddits as [|s0 rest IH]; intros n k s e Hk Hbefore Hraise;
    [done|].
  destruct k as [|k].
  - injection Hk as ->. rewrite Nat.add_0_r in Hraise.
    cbn. rewrite Hraise. by rewrite take_0.
  - destruct (Hbefore 0 s0 ltac:(lia) eq_refl) as [r Hr].
    rewrite Nat.add_0_r in Hr.
    destruct (IH (S n) k s e) as (Hatt & Hfirst & Hlast).
    + exact Hk.
    + intros i s' Hi Hs'. rewrite Nat.add_succ_comm.
      apply (Hbefore (S i)); [lia | done].
    + by rewrite Nat.add_succ_comm.
    + cbn [attempted first_raise publish_lines]. rewrite Hr, Hatt, Hfirst.
      split_and!; [done..|].
      rewrite app_comm_cons, last_app, Hlast. done.
Qed.

(** The error lines of a loop in which no call raises name the rejected
    identifiers, in order. *)
Lemma error_lines_all_return subreddits : ∀ n,
  first_raise env eventBridge n subreddits = Returns () →
  filter is_error_line (publish_lines env eventBridge n subreddits)
  = (error_failed_to_publish ∘ JS.to_string)
      <$> rejected env eventBridge n subreddits.
Proof.
  induction subreddits as [|s rest IH]; intros n Hfirst; [done|].
  cbn in *. destruct (eventBridge n (event s)) as [r|e]; [|done].
  rewrite fmap_app, <- (IH _ Hfirst).
  by destruct (gt_zero (FailedEntryCount r)).
Qed.


End Publisher_facts.

(** ** The invocation as a whole *)

Section Handler_facts.

Context (env : gmap string string).
Context (eventBridge : nat → PutEventsRequest → outcome PutEventsResponse).
Context (ddb : ScanInput → outcome ScanOutput).

Lemma checkEnvSetup_passes st :
  env_is_set env → checkEnvSetup env st = (Returns (), st).
Proof. intros (H1 & H2 & H3). unfold checkEnvSetup. by rewrite H1, H2, H3. Qed.

(** With the variables set, the invocation is the publisher run on the
    list obtained, and fails with the error of the list retrieval when
    that one raises. *)
Lemma handler_run st :
  env_is_set env →
  handler env eventBridge ddb st =
    match getSubRedditList env ddb st with
    | (Returns subreddits, st1) =>
        publishSubReddits env eventBridge subreddits st1
    | (Raises e, st1) => (Raises e, st1)
    end.
Proof.
  intros Hset. unfold handler, mbind, M_bind.
  by rewrite (checkEnvSetup_passes st Hset).
Qed.

Lemma handler_publishes st subreddits st1 :
  checkEnvSetup env st = (Returns (), st) →
  getSubRedditList env ddb st = (Returns subreddits, st1) →
  handler env eventBridge ddb st
  = publishSubReddits env eventBridge subreddits st1.
Proof. intros Hcheck Hlist. unfold handler, mbind, M_bind. by rewrite Hcheck, Hlist. Qed.

End Handler_facts.

(** ** Quoting loses nothing *)

Lemma append_assoc (a b c : string) : (a +:+ b) +:+ c = a +:+ (b +:+ c).
Proof.
  induction a as [|x a IH]; [done|].
  change (String x ((a +:+ b) +:+ c) = String x (a +:+ b +:+ c)). by f_equal.
Qed.

(** Reading back the escape of one character gives the character. *)
Lemma read_literal_escape c rest :
  JSON.read_literal (JSON.escape c +:+ rest)
  = JSON.cons_fst c <$> JSON.read_literal rest.
Proof. destruct c as [[] [] [] [] [] [] [] []]; reflexivity. Qed.

Lemma read_literal_escape_all s rest :
  JSON.read_literal (JSON.escape_all s +:+ String JSON.dquote rest)
  = Some (s, rest).
Proof.
  induction s as [|c s IH]; [done|].
  cbn [JSON.escape_all]. by rewrite append_assoc, read_literal_escape, IH.
Qed.

Lemma escape_plain c : JSON.plain c = true → JSON.escape c = String c EmptyString.
Proof. destruct c as [[] [] [] [] [] [] [] []]; (done || reflexivity). Qed.

Lemma escape_all_plain s :
  JS.every JSON.plain s = true → JSON.escape_all s = s.
Proof.
  induction s as [|c s IH]; [done|]. cbn [JS.every JSON.escape_all].
  intros [Hc Hs]%andb_true_iff. by rewrite (escape_plain c Hc), (IH Hs).
Qed.

(** The detail built for a string identifier, cut at the identifier. *)
Lemma stringify_name_shape s :
  JSONRecord.stringify [("name", JS.str s); ("type", JS.str "subreddit")]
  = JS.dq "{'name':'"
    +:+ (JSON.escape_all s
         +:+ String JSON.dquote (JS.dq ",'type':'subreddit'}")).
Proof.
  unfold JSONRecord.stringify, JSONRecord.member, JSON.quote.
  cbn. rewrite !append_assoc. reflexivity.
Qed.

(** ** The publisher *)



(** C2: started where no put call was made yet, when the put call for item
    [k] (counted from 1) raises and the calls before it returned, the
    publisher has made the calls for the items
    1 to [k], in order, and no call for a later item; it writes the error to
    the console and raises that same error, and so does an invocation that
    reached the publisher with this list. *)
Theorem publishSubReddits_raise_aborts
    (env : gmap string string)
    (eventBridge : nat → PutEventsRequest → outcome PutEventsResponse)
    (subreddits : list JS.value) (st : state)
    (k : nat) (s : JS.value) (e : JS.error) :
  put_requests (calls st) = [] →
  (1 ≤ k)%nat →
  subreddits !! (k - 1) = Some s →
  (∀ j s', (1 ≤ j < k)%nat → subreddits !! (j - 1) = Some s' →
           ∃ r, eventBridge (j - 1) (event_for env s') = Returns r) →
  eventBridge (k - 1) (event_for env s) = Raises e →
  ∃ st',
    publishSubReddits env eventBridge subreddits st = (Raises e, st')
    ∧ calls st' =
        calls st ++ (PutEventsCall <$> (event_for env <$> take k subreddits))
    ∧ length (put_requests (calls st')) = k
    ∧ last (console st') = Some (error_publishing e)
    ∧ ∀ ddb st0,
        checkEnvSetup env st0 = (Returns (), st0) →
        getSubRedditList env ddb st0 = (Returns subreddits, st) →
        handler env eventBridge ddb st0 = (Raises e, st').
Proof.
  intros Hfresh Hk Hs Hbefore Hraise.
  pose proof (publishSubReddits_run env eventBridge subreddits st) as Hrun.
  cbn zeta in Hrun. rewrite Hfresh in Hrun. cbn [length] in Hrun.
  destruct (attempted_raise_at env eventBridge subreddits 0 (k - 1) s e)
    as (Hatt & Hfirst & Hlast); [done| |done|].
  { intros i s' Hi Hs'. cbn [Nat.add].
    replace i with (S i - 1) by lia. apply (Hbefore (S i)); [lia|].
    by replace (S i - 1) with i by lia. }
  replace (S (k - 1)) with k in Hatt by lia.
  rewrite Hatt, Hfirst in Hrun. eexists. split; [exact Hrun|].
  cbn [calls console]. split_and!.
  - done.
  - rewrite put_requests_snoc_all, Hfresh. cbn. rewrite length_fmap, length_take.
    apply lookup_lt_Some in Hs. lia.
  - by rewrite last_app, Hlast.
  - intros ddb st0 Hcheck Hlist.
    by rewrite (handler_publishes env eventBridge ddb st0 subreddits st).
Qed.

Lemma publishSubReddits_raise_aborts_witness :
  ∃ st',
    publishSubReddits scenario_env throttled_bus three_subreddits start
    = (Raises (JS.AWSError "ThrottlingException" "Rate exceeded"), st')
    ∧ calls st' =
        calls start ++
        (PutEventsCall <$> (event_for scenario_env <$> take 2 three_subreddits))
    ∧ length (put_requests (calls st')) = 2
    ∧ last (console st')
      = Some (error_publishing (JS.AWSError "ThrottlingException" "Rate exceeded"))
    ∧ ∀ ddb st0,
        checkEnvSetup scenario_env st0 = (Returns (), st0) →
        getSubRedditList scenario_env ddb st0 = (Returns three_subreddits, start) →
        handler scenario_env throttled_bus ddb st0
        = (Raises (JS.AWSError "ThrottlingException" "Rate exceeded"), st').
Proof.
  apply (publishSubReddits_raise_aborts
           scenario_env throttled_bus three_subreddits start
           2 (JS.str "news")).
  - reflexivity.
  - lia.
  - reflexivity.
  - intros j s' Hj _. assert (j = 1) as -> by lia. eexists. reflexivity.
  - reflexivity.
Defined.

(** C3: started where no put call was made yet, when no put call raises,
    whatever failed-entry counts the responses report, the publisher makes the call of every identifier once, in list
    order, and returns; the error lines it writes name the identifiers whose
    response counted failed entries; an invocation that reached the publisher
    with this list returns as well. *)
Theorem publishSubReddits_rejections_continue
    (env : gmap string string)
    (eventBridge : nat → PutEventsRequest → outcome PutEventsResponse)
    (subreddits : list JS.value) (st : state) :
  put_requests (calls st) = [] →
  (∀ i s, subreddits !! i = Some s →
          ∃ r, eventBridge i (event_for env s) = Returns r) →
  ∃ st',
    publishSubReddits env eventBridge subreddits st = (Returns (), st')
    ∧ calls st' =
        calls st ++ (PutEventsCall <$> (event_for env <$> subreddits))
    ∧ length (put_requests (calls st')) = length subreddits
    ∧ filter is_error_line (console st') =
        filter is_error_line (console st)
        ++ ((error_failed_to_publish ∘ JS.to_string)
              <$> rejected env eventBridge 0 subreddits)
    ∧ ∀ ddb st0,
        checkEnvSetup env st0 = (Returns (), st0) →
        getSubRedditList env ddb st0 = (Returns subreddits, st) →
        handler env eventBridge ddb st0 = (Returns (), st').
Proof.
  intros Hfresh Hret.
  pose proof (publishSubReddits_run env eventBridge subreddits st) as Hrun.
  cbn zeta in Hrun. rewrite Hfresh in Hrun. cbn [length] in Hrun.
  destruct (attempted_all_return env eventBridge subreddits 0 Hret)
    as [Hatt Hfirst].
  rewrite Hatt, Hfirst in Hrun. eexists. split; [exact Hrun|].
  cbn [calls console]. split_and!.
  - done.
  - rewrite put_requests_snoc_all, Hfresh. cbn. by rewrite !length_fmap.
  - by rewrite filter_app, (error_lines_all_return _ _ _ _ Hfirst).
  - intros ddb st0 Hcheck Hlist.
    by rewrite (handler_publishes env eventBridge ddb st0 subreddits st).
Qed.

Lemma publishSubReddits_rejections_continue_witness :
  rejected scenario_env rejecting_second_bus 0 three_subreddits = [JS.str "news"]
  ∧ ∃ st',
      publishSubReddits scenario_env rejecting_second_bus three_subreddits start
      = (Returns (), st')
      ∧ calls st' =
          calls start
          ++ (PutEventsCall <$> (event_for scenario_env <$> three_subreddits))
      ∧ length (put_requests (calls st')) = length three_subreddits
      ∧ filter is_error_line (console st') =
          filter is_error_line (console start)
          ++ ((error_failed_to_publish ∘ JS.to_string)
                <$> rejected scenario_env rejecting_second_bus 0 three_subreddits)
      ∧ ∀ ddb st0,
          checkEnvSetup scenario_env st0 = (Returns (), st0) →
          getSubRedditList scenario_env ddb st0 = (Returns three_subreddits, start) →
          handler scenario_env rejecting_second_bus ddb st0 = (Returns (), st').
Proof.
  split; [reflexivity|].
  apply (publishSubReddits_rejections_continue
           scenario_env rejecting_second_bus three_subreddits start).
  - reflexivity.
  - intros i s _. eexists. reflexivity.
Defined.

(** ** Splitting the configured list *)

Lemma split_not_nil sep s : JS.split sep s ≠ [].
Proof.
  destruct s as [|c rest]; [done|]. cbn [JS.split].
  destruct (Ascii.eqb c sep); [done|]. by destruct (JS.split sep rest).
Qed.

Lemma split_no_separator sep tok :
  JS.includes sep tok = false → JS.split sep tok = [tok].
Proof.
  induction tok as [|c rest IH]; [done|]. cbn [JS.split JS.includes].
  intros [Hc Hrest]%orb_false_elim. by rewrite Hc, (IH Hrest).
Qed.

Lemma split_token_then_rest sep tok rest :
  JS.includes sep tok = false →
  JS.split sep (tok +:+ String sep rest) = tok :: JS.split sep rest.
Proof.
  induction tok as [|c tok IH].
  - intros _. change (EmptyString +:+ String sep rest) with (String sep rest).
    cbn [JS.split]. by rewrite Ascii.eqb_refl.
  - cbn [JS.includes]. intros [Hc Htok]%orb_false_elim.
    change (String c tok +:+ String sep rest)
      with (String c (tok +:+ String sep rest)).
    cbn [JS.split]. by rewrite Hc, (IH Htok).
Qed.

(** Splitting inverts joining for tokens that hold no separator. *)
Lemma split_join sep toks :
  toks ≠ [] →
  Forall (λ tok, JS.includes sep tok = false) toks →
  JS.split sep (JS.join sep toks) = toks.
Proof.
  induction toks as [|tok rest IH]; [done|]. intros _ Hfree.
  apply Forall_cons in Hfree as [Htok Hrest].
  destruct rest as [|tok' rest].
  - by apply split_no_separator.
  - change (JS.join sep (tok :: tok' :: rest))
      with (tok +:+ String sep (JS.join sep (tok' :: rest))).
    rewrite (split_token_then_rest _ _ _ Htok). by rewrite IH.
Qed.

(** ** Validation and the choice of the source *)

Lemma truthy_false v : missing_or_empty v → JS.truthy v = false.
Proof. by intros [-> | ->]. Qed.

Lemma loose_eq_true v lit : JS.loose_eq v lit = true ↔ v = Some lit.
Proof.
  destruct v as [s|]; cbn; [|done].
  rewrite bool_decide_eq_true. naive_solver.
Qed.

Lemma switch_off (env : gmap string string) :
  env !! "READ_SUBREDDITS_FROM_DDB" ≠ Some "TRUE" →
  JS.loose_eq (env !! "READ_SUBREDDITS_FROM_DDB") "TRUE" = false.
Proof.
  intros Hoff. apply not_true_is_false. by rewrite loose_eq_true.
Qed.

(** The run of the list provider on the table. *)
Lemma getSubRedditList_table env ddb st :
  env !! "READ_SUBREDDITS_FROM_DDB" = Some "TRUE" →
  getSubRedditList env ddb st =
    let params := {| TableName := env !! "SOURCE_DDB_TABLE" |} in
    match ddb params with
    | Returns out =>
        (array_map item_SUB_REDDIT_S (Items out),
         {| calls := calls st ++ [ScanCall params];
            console :=
              (console st ++ [debug_ddb_response out])
              ++ match array_map item_SUB_REDDIT_S (Items out) with
                 | Returns _ => []
                 | Raises e => [error_ddb e]
                 end |})
    | Raises e =>
        (Raises e,
         {| calls := calls st ++ [ScanCall params];
            console := console st ++ [error_ddb e] |})
    end.
Proof.
  intros Hon. unfold getSubRedditList. rewrite Hon. cbn.
  unfold try_catch, mbind, M_bind, scan. cbn.
  destruct (ddb _) as [out|e]; cbn; [|done].
  unfold lift. destruct (array_map _ _); cbn; [|done].
  by rewrite app_nil_r.
Qed.

(** The run of the list provider on the configured string. *)
Lemma getSubRedditList_static env ddb st :
  env !! "READ_SUBREDDITS_FROM_DDB" ≠ Some "TRUE" →
  getSubRedditList env ddb st =
    match env !! "SUBREDDITS_TO_FOLLOW" with
    | Some (String c rest) =>
        (Returns (JS.str <$> JS.split "," (String c rest)),
         {| calls := calls st;
            console :=
              console st ++ [debug_publishing (JS.split "," (String c rest))] |})
    | _ => (Raises (JS.Error no_source_message), st)
    end.
Proof.
  intros Hoff%switch_off. unfold getSubRedditList. rewrite Hoff.
  destruct (env !! "SUBREDDITS_TO_FOLLOW") as [[|c rest]|]; done.
Qed.

(** C4: when one of the three required variables (bus name, namespace,
    table name) is unset or empty, the invocation raises the configuration
    error and leaves the state as it was: no scan call and no put call is
    made, and nothing is written. *)
Theorem handler_env_not_set
    (env : gmap string string)
    (eventBridge : nat → PutEventsRequest → outcome PutEventsResponse)
    (ddb : ScanInput → outcome ScanOutput) (st : state) :
  missing_or_empty (env !! "EVENT_BUS_NAME")
  ∨ missing_or_empty (env !! "SUBREDDIT_PUBLISH_NAMESPACE")
  ∨ missing_or_empty (env !! "SOURCE_DDB_TABLE") →
  checkEnvSetup env st = (Raises (JS.Error env_not_set_message), st)
  ∧ handler env eventBridge ddb st
    = (Raises (JS.Error env_not_set_message), st)
  ∧ calls (handler env eventBridge ddb start).2 = [].
Proof.
  intros Hmissing.
  assert (Hcheck : ∀ st0,
            checkEnvSetup env st0 = (Raises (JS.Error env_not_set_message), st0)).
  { intros st0. unfold checkEnvSetup.
    destruct Hmissing as [H | [H | H]]; rewrite (truthy_false _ H);
      by rewrite ?andb_false_r. }
  assert (Hhandler : ∀ st0,
            handler env eventBridge ddb st0
            = (Raises (JS.Error env_not_set_message), st0)).
  { intros st0. unfold handler, mbind, M_bind. by rewrite Hcheck. }
  split_and!; [done..|]. by rewrite Hhandler.
Qed.

Lemma handler_env_not_set_witness :
  missing_or_empty (env_without_table !! "SOURCE_DDB_TABLE")
  ∧ handler env_without_table accepting_bus table_ddb start
    = (Raises (JS.Error env_not_set_message), start).
Proof.
  assert (Hmissing : missing_or_empty (env_without_table !! "SOURCE_DDB_TABLE"))
    by (left; reflexivity).
  split; [exact Hmissing|].
  apply (handler_env_not_set env_without_table accepting_bus table_ddb start).
  right. right. exact Hmissing.
Defined.

(** C5: the value of the switch alone selects the source.  When the switch
    variable is 'TRUE' the provider makes one scan call on the configured
    table and its result is the projection of the rows of the reply (or the
    error raised): the configured string is not read.  When the switch is
    anything else or unset, the provider makes no call and its result is
    the split of the configured string (or the error of a string that is
    unset or empty): the table is not read. *)
Theorem getSubRedditList_source_by_switch
    (env : gmap string string)
    (ddb : ScanInput → outcome ScanOutput) (st : state) :
  (env !! "READ_SUBREDDITS_FROM_DDB" = Some "TRUE" →
     let params := {| TableName := env !! "SOURCE_DDB_TABLE" |} in
     calls (getSubRedditList env ddb st).2 = calls st ++ [ScanCall params]
     ∧ (getSubRedditList env ddb st).1 =
         match ddb params with
         | Returns out => array_map item_SUB_REDDIT_S (Items out)
         | Raises e => Raises e
         end)
  ∧ (env !! "READ_SUBREDDITS_FROM_DDB" ≠ Some "TRUE" →
     calls (getSubRedditList env ddb st).2 = calls st
     ∧ (getSubRedditList env ddb st).1 =
         match env !! "SUBREDDITS_TO_FOLLOW" with
         | Some (String c rest) =>
             Returns (JS.str <$> JS.split "," (String c rest))
         | _ => Raises (JS.Error no_source_message)
         end).
Proof.
  split.
  - intros Hon params. rewrite (getSubRedditList_table env ddb st Hon).
    cbn zeta. fold params. by destruct (ddb params).
  - intros Hoff. rewrite (getSubRedditList_static env ddb st Hoff).
    by destruct (env !! "SUBREDDITS_TO_FOLLOW") as [[|c rest]|].
Qed.

Lemma getSubRedditList_source_by_switch_witness :
  (calls (getSubRedditList table_env table_ddb start).2
   = [ScanCall {| TableName := Some "t1" |}]
   ∧ (getSubRedditList table_env table_ddb start).1
     = Returns [JS.str "news"; JS.str "aws"; JS.str "news"])
  ∧ (calls (getSubRedditList scenario_env table_ddb start).2 = []
     ∧ (getSubRedditList scenario_env table_ddb start).1
       = Returns [JS.str "sub1"; JS.str "sub2"]).
Proof.
  split.
  - apply (proj1 (getSubRedditList_source_by_switch table_env table_ddb start)).
    reflexivity.
  - apply (proj2 (getSubRedditList_source_by_switch scenario_env table_ddb start)).
    discriminate.
Defined.

Lemma array_map_projection (rows : list (gmap string AttributeValue)) :
  Forall (λ item, is_Some (item !! "SUB_REDDIT")) rows →
  array_map item_SUB_REDDIT_S rows = Returns (SUB_REDDIT_S <$> rows).
Proof.
  induction 1 as [|item rows [attr Hattr] _ IH]; [done|].
  cbn. unfold item_SUB_REDDIT_S at 1, SUB_REDDIT_S at 1.
  by rewrite Hattr, IH.
Qed.

(** The switch is on for the value 'TRUE' only: with 'true' the configured
    string is the source. *)
Lemma getSubRedditList_switch_lowercase :
  getSubRedditList (<["READ_SUBREDDITS_FROM_DDB" := "true"]> scenario_env)
    table_ddb start
  = (Returns [JS.str "sub1"; JS.str "sub2"],
     {| calls := []; console := [debug_publishing ["sub1"; "sub2"]] |}).
Proof. reflexivity. Qed.

(** A row without the attribute makes the provider raise. *)
Lemma array_map_row_without_attribute :
  array_map item_SUB_REDDIT_S [ {[ "OTHER" := AttrS "news" ]} ]
  = Raises (JS.TypeError_reading "S").
Proof. reflexivity. Qed.

(** C6, as worded, fails on a scan that succeeds with a row that does not
    hold the attribute: the provider raises the type error of the read and
    produces no list. *)
Lemma getSubRedditList_table_projection_counterexample :
  table_env !! "READ_SUBREDDITS_FROM_DDB" = Some "TRUE"
  ∧ gap_ddb {| TableName := table_env !! "SOURCE_DDB_TABLE" |}
    = Returns {| Items := rows_with_gap |}
  ∧ (getSubRedditList table_env gap_ddb start).1
    = Raises (JS.TypeError_reading "S")
  ∧ ¬ ∃ subreddits,
        (getSubRedditList table_env gap_ddb start).1 = Returns subreddits.
Proof.
  split_and!; [reflexivity..|]. intros [subreddits Hlist]. discriminate Hlist.
Qed.

(** C6, amended: with the switch on and a scan that succeeds on rows that
    all hold the attribute, the list produced is the attribute of each row,
    in the order of the rows, one element per row: nothing is merged,
    dropped or moved.  The element of a row is the string of its attribute
    when the attribute is a string, and the missing identifier when it is
    of another type. *)
Theorem getSubRedditList_table_projection
    (env : gmap string string)
    (ddb : ScanInput → outcome ScanOutput) (st : state)
    (out : ScanOutput) :
  env !! "READ_SUBREDDITS_FROM_DDB" = Some "TRUE" →
  ddb {| TableName := env !! "SOURCE_DDB_TABLE" |} = Returns out →
  Forall (λ item, is_Some (item !! "SUB_REDDIT")) (Items out) →
  ∃ subreddits,
    (getSubRedditList env ddb st).1 = Returns subreddits
    ∧ subreddits = SUB_REDDIT_S <$> Items out
    ∧ length subreddits = length (Items out)
    ∧ (∀ i item, Items out !! i = Some item →
                 subreddits !! i = Some (SUB_REDDIT_S item))
    ∧ (∀ i item name,
         Items out !! i = Some item →
         item !! "SUB_REDDIT" = Some (AttrS name) →
         subreddits !! i = Some (JS.str name))
    ∧ (∀ i item attr,
         Items out !! i = Some item →
         item !! "SUB_REDDIT" = Some attr →
         (∀ name, attr ≠ AttrS name) →
         subreddits !! i = Some JS.undefined).
Proof.
  intros Hon Hscan Hrows. eexists. split_and!.
  - rewrite (getSubRedditList_table env ddb st Hon). cbn zeta.
    rewrite Hscan. cbn [fst]. by apply array_map_projection.
  - done.
  - by rewrite length_fmap.
  - intros i item Hi. by rewrite list_lookup_fmap, Hi.
  - intros i item name Hi Hattr. rewrite list_lookup_fmap, Hi. cbn.
    unfold SUB_REDDIT_S. by rewrite Hattr.
  - intros i item attr Hi Hattr Hnot. rewrite list_lookup_fmap, Hi. cbn.
    unfold SUB_REDDIT_S. rewrite Hattr.
    destruct attr as [name| | |]; [by destruct (Hnot name)|done..].
Qed.

Lemma getSubRedditList_table_projection_witness :
  Forall (λ item, is_Some (item !! "SUB_REDDIT")) scanned_rows
  ∧ ∃ subreddits,
      (getSubRedditList table_env table_ddb start).1 = Returns subreddits
      ∧ subreddits = [JS.str "news"; JS.str "aws"; JS.str "news"].
Proof.
  assert (Hrows : Forall (λ item, is_Some (item !! "SUB_REDDIT")) scanned_rows)
    by (repeat constructor; eexists; reflexivity).
  split; [exact Hrows|].
  destruct (getSubRedditList_table_projection
              table_env table_ddb start {| Items := scanned_rows |})
    as (subreddits & Hlist & Hmap & _).
  - reflexivity.
  - reflexivity.
  - exact Hrows.
  - exists subreddits. split; [exact Hlist|]. rewrite Hmap. reflexivity.
Defined.

(** C7: with the switch off, the configured string 'a,b,c' gives the list
    a, b, c; more generally a string that joins tokens free of commas gives
    those tokens in order, and a string without a comma gives the
    one-element list holding it; when the string is unset or empty the
    provider raises an error, produces no list and makes no call. *)
Theorem getSubRedditList_static_split
    (env : gmap string string)
    (ddb : ScanInput → outcome ScanOutput) (st : state) :
  env !! "READ_SUBREDDITS_FROM_DDB" ≠ Some "TRUE" →
  (env !! "SUBREDDITS_TO_FOLLOW" = Some "a,b,c" →
     (getSubRedditList env ddb st).1
     = Returns [JS.str "a"; JS.str "b"; JS.str "c"])
  ∧ (∀ toks,
       Forall (λ tok, JS.includes "," tok = false) toks →
       JS.join "," toks ≠ EmptyString →
       env !! "SUBREDDITS_TO_FOLLOW" = Some (JS.join "," toks) →
       (getSubRedditList env ddb st).1 = Returns (JS.str <$> toks))
  ∧ (∀ tok,
       tok ≠ EmptyString → JS.includes "," tok = false →
       env !! "SUBREDDITS_TO_FOLLOW" = Some tok →
       (getSubRedditList env ddb st).1 = Returns [JS.str tok])
  ∧ (missing_or_empty (env !! "SUBREDDITS_TO_FOLLOW") →
     getSubRedditList env ddb st = (Raises (JS.Error no_source_message), st)).
Proof.
  intros Hoff. rewrite (getSubRedditList_static env ddb st Hoff).
  assert (Hjoin : ∀ toks,
            Forall (λ tok, JS.includes "," tok = false) toks →
            JS.join "," toks ≠ EmptyString →
            env !! "SUBREDDITS_TO_FOLLOW" = Some (JS.join "," toks) →
            (match env !! "SUBREDDITS_TO_FOLLOW" with
             | Some (String c rest) =>
                 (Returns (JS.str <$> JS.split "," (String c rest)),
                  {| calls := calls st;
                     console :=
                       console st
                       ++ [debug_publishing (JS.split "," (String c rest))] |})
             | _ => (Raises (JS.Error no_source_message), st)
             end).1 = Returns (JS.str <$> toks)).
  { intros toks Hfree Hne ->.
    destruct (JS.join "," toks) as [|c rest] eqn:Hjoined; [done|].
    cbn [fst]. rewrite <- Hjoined, split_join; [done| |done].
    by intros ->. }
  split_and!.
  - intros Habc. apply (Hjoin ["a"; "b"; "c"]); [|done..].
    by repeat constructor.
  - exact Hjoin.
  - intros tok Hne Hfree Htok. apply (Hjoin [tok]); [|done..].
    by repeat constructor.
  - by intros [-> | ->].
Qed.

Lemma getSubRedditList_static_split_witness :
  (getSubRedditList abc_env failing_ddb start).1
  = Returns [JS.str "a"; JS.str "b"; JS.str "c"]
  ∧ (getSubRedditList scenario_env failing_ddb start).1
    = Returns (JS.str <$> ["sub1"; "sub2"])
  ∧ getSubRedditList no_list_env failing_ddb start
    = (Raises (JS.Error no_source_message), start).
Proof.
  split_and!.
  - apply (getSubRedditList_static_split abc_env failing_ddb start);
      [discriminate | reflexivity].
  - apply (getSubRedditList_static_split scenario_env failing_ddb start);
      [discriminate | by repeat constructor | discriminate | reflexivity].
  - apply (getSubRedditList_static_split no_list_env failing_ddb start);
      [discriminate | left; reflexivity].
Defined.

(** C8: with the required variables set and the switch on, when the scan
    call raises, the provider and the invocation raise that same error; the
    scan is called once and no put call is made. *)
Theorem handler_scan_error
    (env : gmap string string)
    (eventBridge : nat → PutEventsRequest → outcome PutEventsResponse)
    (ddb : ScanInput → outcome ScanOutput) (st : state) (e : JS.error) :
  env_is_set env →
  env !! "READ_SUBREDDITS_FROM_DDB" = Some "TRUE" →
  ddb {| TableName := env !! "SOURCE_DDB_TABLE" |} = Raises e →
  (getSubRedditList env ddb st).1 = Raises e
  ∧ ∃ st',
      handler env eventBridge ddb st = (Raises e, st')
      ∧ calls st' =
          calls st ++ [ScanCall {| TableName := env !! "SOURCE_DDB_TABLE" |}]
      ∧ put_requests (calls st') = put_requests (calls st)
      ∧ last (console st') = Some (error_ddb e).
Proof.
  intros Hset Hon Hscan.
  pose proof (getSubRedditList_table env ddb st Hon) as Hlist.
  cbn zeta in Hlist. rewrite Hscan in Hlist.
  split; [by rewrite Hlist|].
  eexists. rewrite (handler_run env eventBridge ddb st Hset), Hlist.
  split_and!; [done..| |].
  - cbn [calls]. by rewrite put_requests_snoc_scan.
  - cbn [console]. by rewrite last_snoc.
Qed.

Lemma handler_scan_error_witness :
  env_is_set table_env
  ∧ ∃ st',
      handler table_env accepting_bus failing_ddb start
      = (Raises (JS.AWSError "AccessDeniedException" "not authorized to Scan"),
         st')
      ∧ calls st' = calls start ++ [ScanCall {| TableName := table_env !! "SOURCE_DDB_TABLE" |}]
      ∧ put_requests (calls st') = put_requests (calls start)
      ∧ last (console st')
        = Some (error_ddb (JS.AWSError "AccessDeniedException"
                                        "not authorized to Scan")).
Proof.
  assert (Hset : env_is_set table_env) by (by split_and!).
  split; [exact Hset|].
  apply (handler_scan_error table_env accepting_bus failing_ddb start);
    [exact Hset | reflexivity | reflexivity].
Defined.

(** C9: on the empty list the publisher makes no call, writes nothing and
    returns; an invocation whose table scan returns no row makes the scan
    call and no put call, and returns. *)
Theorem publishSubReddits_nil
    (env : gmap string string)
    (eventBridge : nat → PutEventsRequest → outcome PutEventsResponse)
    (ddb : ScanInput → outcome ScanOutput) (st : state) :
  publishSubReddits env eventBridge [] st = (Returns (), st)
  ∧ (env_is_set env →
     env !! "READ_SUBREDDITS_FROM_DDB" = Some "TRUE" →
     ddb {| TableName := env !! "SOURCE_DDB_TABLE" |}
     = Returns {| Items := [] |} →
     ∃ st',
       handler env eventBridge ddb st = (Returns (), st')
       ∧ calls st' =
           calls st ++ [ScanCall {| TableName := env !! "SOURCE_DDB_TABLE" |}]
       ∧ put_requests (calls st') = put_requests (calls st)).
Proof.
  split; [done|]. intros Hset Hon Hscan.
  pose proof (getSubRedditList_table env ddb st Hon) as Hlist.
  cbn zeta in Hlist. rewrite Hscan in Hlist. cbn in Hlist.
  eexists. rewrite (handler_run env eventBridge ddb st Hset), Hlist.
  split_and!; [done..|].
  cbn [calls]. by rewrite put_requests_snoc_scan.
Qed.

Lemma publishSubReddits_nil_witness :
  ∃ st',
    handler table_env throttled_bus empty_ddb start = (Returns (), st')
    ∧ calls st' =
        calls start
        ++ [ScanCall {| TableName := table_env !! "SOURCE_DDB_TABLE" |}]
    ∧ put_requests (calls st') = put_requests (calls start).
Proof.
  apply (publishSubReddits_nil table_env throttled_bus empty_ddb start);
    [by split_and! | reflexivity | reflexivity].
Defined.

(** C10: with the required variables set, the switch off and a configured
    string that is not empty, an invocation on a bus that raises on none of
    the calls publishes one event per token of the split, in order, each
    token taken as it is; the string 'a,,b,' splits into a, the empty
    string, b and the empty string, and the event of an empty token has
    the empty string as name in its detail. *)
Theorem handler_static_tokens_verbatim
    (env : gmap string string)
    (eventBridge : nat → PutEventsRequest → outcome PutEventsResponse)
    (ddb : ScanInput → outcome ScanOutput) (st : state)
    (followed : string) :
  env_is_set env →
  env !! "READ_SUBREDDITS_FROM_DDB" ≠ Some "TRUE" →
  env !! "SUBREDDITS_TO_FOLLOW" = Some followed →
  followed ≠ EmptyString →
  put_requests (calls st) = [] →
  (∀ i tok, JS.split "," followed !! i = Some tok →
            ∃ r, eventBridge i (event_for env (JS.str tok)) = Returns r) →
  ∃ st',
    handler env eventBridge ddb st = (Returns (), st')
    ∧ calls st' =
        calls st
        ++ (PutEventsCall
              <$> (event_for env <$> (JS.str <$> JS.split "," followed)))
    ∧ JS.split "," "a,,b," = ["a"; EmptyString; "b"; EmptyString]
    ∧ Detail <$> Entries (event_for env (JS.str EmptyString))
      = [JS.dq "{'name':'','type':'subreddit'}"]
    ∧ (followed = "a,,b," →
       Detail <$> (put_requests (calls st') ≫= Entries)
       = [JS.dq "{'name':'a','type':'subreddit'}";
          JS.dq "{'name':'','type':'subreddit'}";
          JS.dq "{'name':'b','type':'subreddit'}";
          JS.dq "{'name':'','type':'subreddit'}"]).
Proof.
  intros Hset Hoff Hfollowed Hne Hfresh Hret.
  pose proof (getSubRedditList_static env ddb st Hoff) as Hlist.
  rewrite Hfollowed in Hlist. destruct followed as [|c rest]; [done|].
  set (toks := JS.split "," (String c rest)) in *.
  pose proof (publishSubReddits_run env eventBridge (JS.str <$> toks)
                {| calls := calls st;
                   console := console st ++ [debug_publishing toks] |})
    as Hrun.
  cbn zeta in Hrun. cbn [calls console] in Hrun.
  rewrite Hfresh in Hrun. cbn [length] in Hrun.
  destruct (attempted_all_return env eventBridge (JS.str <$> toks) 0)
    as [Hatt Hfirst].
  { intros i s Hi. rewrite list_lookup_fmap in Hi.
    destruct (toks !! i) as [tok|] eqn:Htok; [|done].
    injection Hi as <-. by apply Hret. }
  rewrite Hatt, Hfirst in Hrun.
  eexists. rewrite (handler_run env eventBridge ddb st Hset), Hlist.
  split; [exact Hrun|]. cbn [calls]. split_and!; [done..|].
  intros Habc. rewrite put_requests_snoc_all, Hfresh.
  subst toks. by rewrite Habc.
Qed.

Lemma handler_static_tokens_verbatim_witness :
  ∃ st',
    handler commas_env accepting_bus failing_ddb start = (Returns (), st')
    ∧ calls st' =
        calls start
        ++ (PutEventsCall
              <$> (event_for commas_env <$> (JS.str <$> JS.split "," "a,,b,")))
    ∧ JS.split "," "a,,b," = ["a"; EmptyString; "b"; EmptyString]
    ∧ Detail <$> Entries (event_for commas_env (JS.str EmptyString))
      = [JS.dq "{'name':'','type':'subreddit'}"]
    ∧ ("a,,b," = "a,,b," →
       Detail <$> (put_requests (calls st') ≫= Entries)
       = [JS.dq "{'name':'a','type':'subreddit'}";
          JS.dq "{'name':'','type':'subreddit'}";
          JS.dq "{'name':'b','type':'subreddit'}";
          JS.dq "{'name':'','type':'subreddit'}"]).
Proof.
  apply (handler_static_tokens_verbatim
           commas_env accepting_bus failing_ddb start "a,,b,").
  - by split_and!.
  - discriminate.
  - reflexivity.
  - discriminate.
  - reflexivity.
  - intros i tok _. eexists. reflexivity.
Defined.

(** ** The detail tells the identifiers apart *)

(** Two identifiers with the same detail are the same identifier. *)
Lemma stringify_name_inj s1 s2 :
  JSONRecord.stringify [("name", s1); ("type", JS.str "subreddit")]
  = JSONRecord.stringify [("name", s2); ("type", JS.str "subreddit")] →
  s1 = s2.
Proof.
  destruct s1 as [|s1], s2 as [|s2]; [done| | |].
  - rewrite stringify_name_shape. discriminate.
  - rewrite stringify_name_shape. discriminate.
  - rewrite !stringify_name_shape. intros Heq%(inj (String.app _)).
    apply (f_equal JSON.read_literal) in Heq.
    rewrite !read_literal_escape_all in Heq. congruence.
Qed.

(** The detail of an event tells the identifiers apart: two different
    identifiers, the missing one included, never get the same detail, so
    never the same event. *)
Theorem event_for_distinct (env : gmap string string) (s1 s2 : JS.value) :
  s1 ≠ s2 →
  Detail <$> Entries (event_for env s1) ≠ Detail <$> Entries (event_for env s2)
  ∧ event_for env s1 ≠ event_for env s2.
Proof.
  intros Hne.
  assert (Hdetail : Detail <$> Entries (event_for env s1)
                    ≠ Detail <$> Entries (event_for env s2)).
  { change ([JSONRecord.stringify [("name", s1); ("type", JS.str "subreddit")]]
            ≠ [JSONRecord.stringify [("name", s2); ("type", JS.str "subreddit")]]).
    intros Heq. apply Hne, stringify_name_inj. congruence. }
  split; [done|]. intros Heq. apply Hdetail. by rewrite Heq.
Qed.

Lemma event_for_distinct_witness :
  Detail <$> Entries (event_for scenario_env (JS.str "a,b"))
  ≠ Detail <$> Entries (event_for scenario_env (JS.str "a\,b"))
  ∧ event_for scenario_env (JS.str "a,b")
    ≠ event_for scenario_env (JS.str "a\,b").
Proof.
  apply (event_for_distinct scenario_env (JS.str "a,b") (JS.str "a\,b")).
  discriminate.
Defined.

(** An identifier made of printable characters other than the double quote
    and the backslash stands in the detail as it is, between the fixed
    texts of the record. *)
Theorem event_for_plain_name (env : gmap string string) (s : string) :
  JS.every JSON.plain s = true →
  Detail <$> Entries (event_for env (JS.str s))
  = [JS.dq "{'name':'" +:+ s +:+ JS.dq "','type':'subreddit'}"].
Proof.
  intros Hplain.
  change ([JSONRecord.stringify [("name", JS.str s); ("type", JS.str "subreddit")]]
          = [JS.dq "{'name':'" +:+ s +:+ JS.dq "','type':'subreddit'}"]).
  rewrite stringify_name_shape. by rewrite (escape_all_plain s Hplain).
Qed.

Lemma event_for_plain_name_witness :
  JS.every JSON.plain "r/aws_news" = true
  ∧ Detail <$> Entries (event_for scenario_env (JS.str "r/aws_news"))
    = [JS.dq "{'name':'r/aws_news','type':'subreddit'}"].
Proof.
  split; [reflexivity|].
  apply (event_for_plain_name scenario_env "r/aws_news"). reflexivity.
Defined.

(** ** The validator, in both directions *)

Lemma truthy_true v :
  JS.truthy v = true ↔ ∃ s, v = Some s ∧ s ≠ EmptyString.
Proof.
  destruct v as [[|c s]|]; cbn; split; try done.
  - intros (s & [= <-] & Hne). done.
  - intros _. by eexists.
  - intros (s & [=] & _).
Qed.

(** The validator returns exactly when the three variables hold a string
    that is not empty, raises its error otherwise, and in both cases leaves
    the calls and the console as they were. *)
Theorem checkEnvSetup_returns_iff (env : gmap string string) (st : state) :
  (checkEnvSetup env st).2 = st
  ∧ ((checkEnvSetup env st).1 = Returns ()
     ↔ ∃ bus namespace table,
         env !! "EVENT_BUS_NAME" = Some bus ∧ bus ≠ EmptyString
         ∧ env !! "SUBREDDIT_PUBLISH_NAMESPACE" = Some namespace
         ∧ namespace ≠ EmptyString
         ∧ env !! "SOURCE_DDB_TABLE" = Some table ∧ table ≠ EmptyString)
  ∧ ((checkEnvSetup env st).1 ≠ Returns ()
     → (checkEnvSetup env st).1 = Raises (JS.Error env_not_set_message)).
Proof.
  unfold checkEnvSetup.
  destruct (JS.truthy (env !! "EVENT_BUS_NAME")) eqn:Hbus;
    destruct (JS.truthy (env !! "SUBREDDIT_PUBLISH_NAMESPACE")) eqn:Hns;
    destruct (JS.truthy (env !! "SOURCE_DDB_TABLE")) eqn:Htable;
    cbn; (split; [done|]); (split; [|done]).
  1: { apply truthy_true in Hbus as (b & -> & ?).
       apply truthy_true in Hns as (n & -> & ?).
       apply truthy_true in Htable as (t & -> & ?).
       split; [|done]. intros _. by exists b, n, t. }
  all: split; [done|]; intros (b & n & t & Hb & ? & Hn & ? & Ht & ?).
  all: try (assert (JS.truthy (env !! "EVENT_BUS_NAME") = true)
              by (apply truthy_true; eauto); congruence).
  all: try (assert (JS.truthy (env !! "SUBREDDIT_PUBLISH_NAMESPACE") = true)
              by (apply truthy_true; eauto); congruence).
  all: try (assert (JS.truthy (env !! "SOURCE_DDB_TABLE") = true)
              by (apply truthy_true; eauto); congruence).
Qed.

(** ** The publisher against any bus *)

Section Publisher_any_bus.

Context (env : gmap string string).
Context (eventBridge : nat → PutEventsRequest → outcome PutEventsResponse).

Local Abbreviation event := (event_for env).

(** The attempted identifiers are a prefix of the list, the whole of it when
    nothing is raised. *)
Lemma attempted_prefix subreddits : ∀ n,
  ∃ k, (k ≤ length subreddits)%nat
       ∧ attempted env eventBridge n subreddits = take k subreddits
       ∧ (first_raise env eventBridge n subreddits = Returns () →
          k = length subreddits).
Proof.
  induction subreddits as [|s rest IH]; intros n.
  - exists 0. by split_and!.
  - cbn [attempted first_raise].
    destruct (eventBridge n (event s)) as [r|e].
    + destruct (IH (S n)) as (k & Hk & Hatt & Hall).
      exists (S k). cbn. rewrite Hatt. split_and!; [lia|done|].
      intros Hfirst. by rewrite (Hall Hfirst).
    + exists 1. cbn. rewrite take_0. split_and!; [lia|done..].
Qed.

Lemma first_raise_returns_inv subreddits : ∀ n,
  first_raise env eventBridge n subreddits = Returns () →
  ∀ i s, subreddits !! i = Some s →
         ∃ r, eventBridge (n + i) (event s) = Returns r.
Proof.
  induction subreddits as [|s0 rest IH]; intros n Hfirst i s Hi; [done|].
  cbn in Hfirst. destruct (eventBridge n (event s0)) as [r|e] eqn:Hr; [|done].
  destruct i as [|i].
  - injection Hi as <-. rewrite Nat.add_0_r. by exists r.
  - rewrite <- Nat.add_succ_comm. by apply IH.
Qed.

Lemma first_raise_raises_inv subreddits : ∀ n e,
  first_raise env eventBridge n subreddits = Raises e →
  ∃ k s, subreddits !! k = Some s
         ∧ eventBridge (n + k) (event s) = Raises e
         ∧ ∀ i s', i < k → subreddits !! i = Some s' →
                   ∃ r, eventBridge (n + i) (event s') = Returns r.
Proof.
  induction subreddits as [|s0 rest IH]; intros n e Hfirst; [done|].
  cbn in Hfirst. destruct (eventBridge n (event s0)) as [r|e0] eqn:Hr.
  - destruct (IH (S n) e Hfirst) as (k & s & Hk & Hraise & Hbefore).
    exists (S k), s. split_and!; [done|by rewrite <- Nat.add_succ_comm|].
    intros [|i] s' Hi Hs'.
    + injection Hs' as <-. rewrite Nat.add_0_r. by exists r.
    + rewrite <- Nat.add_succ_comm. apply Hbefore; [lia|done].
  - injection Hfirst as ->. exists 0, s0.
    split_and!; [done|by rewrite Nat.add_0_r|]. intros i s' Hi. lia.
Qed.

End Publisher_any_bus.

(** Whatever the bus replies, the publisher only adds put calls, and those
    are the events of a prefix of the list, in order: no identifier is
    called twice or skipped, no scan is made, and the console is only
    appended to; when the publisher returns the prefix is the whole list. *)
Theorem publishSubReddits_calls_prefix
    (env : gmap string string)
    (eventBridge : nat → PutEventsRequest → outcome PutEventsResponse)
    (subreddits : list JS.value) (st : state) :
  ∃ k lines,
    (k ≤ length subreddits)%nat
    ∧ calls (publishSubReddits env eventBridge subreddits st).2
      = calls st ++ (PutEventsCall <$> (event_for env <$> take k subreddits))
    ∧ console (publishSubReddits env eventBridge subreddits st).2
      = console st ++ lines
    ∧ ((publishSubReddits env eventBridge subreddits st).1 = Returns () →
       k = length subreddits).
Proof.
  rewrite publishSubReddits_run. cbn zeta. cbn [fst snd calls console].
  destruct (attempted_prefix env eventBridge subreddits
              (length (put_requests (calls st)))) as (k & Hk & Hatt & Hall).
  exists k. eexists. rewrite Hatt. by split_and!.
Qed.

(** Started where no put call was made yet, the publisher returns exactly
    when none of its calls raises: a rejected entry never makes it fail,
    and nothing else than a raising call does. *)
Theorem publishSubReddits_returns_iff
    (env : gmap string string)
    (eventBridge : nat → PutEventsRequest → outcome PutEventsResponse)
    (subreddits : list JS.value) (st : state) :
  put_requests (calls st) = [] →
  (publishSubReddits env eventBridge subreddits st).1 = Returns ()
  ↔ ∀ i s, subreddits !! i = Some s →
           ∃ r, eventBridge i (event_for env s) = Returns r.
Proof.
  intros Hfresh. rewrite publishSubReddits_run. cbn zeta. cbn [fst].
  rewrite Hfresh. cbn [length]. split.
  - apply first_raise_returns_inv.
  - intros Hret. by apply attempted_all_return.
Qed.

Lemma publishSubReddits_returns_iff_witness :
  (publishSubReddits scenario_env rejecting_second_bus three_subreddits start).1
  = Returns ()
  ∧ ¬ ∀ i s, three_subreddits !! i = Some s →
             ∃ r, throttled_bus i (event_for scenario_env s) = Returns r.
Proof.
  split.
  - apply (publishSubReddits_returns_iff
             scenario_env rejecting_second_bus three_subreddits start);
      [reflexivity|].
    intros i s _. eexists. reflexivity.
  - intros Hret.
    apply (publishSubReddits_returns_iff
             scenario_env throttled_bus three_subreddits start) in Hret;
      [discriminate | reflexivity].
Defined.

(** Started where no put call was made yet, an error raised by the publisher
    is the error raised by the last put call it made: the calls before it
    returned, and the calls made are those of the identifiers up to that
    one. *)
Theorem publishSubReddits_raises_bus_error
    (env : gmap string string)
    (eventBridge : nat → PutEventsRequest → outcome PutEventsResponse)
    (subreddits : list JS.value) (st : state) (e : JS.error) :
  put_requests (calls st) = [] →
  (publishSubReddits env eventBridge subreddits st).1 = Raises e →
  ∃ k s,
    subreddits !! k = Some s
    ∧ eventBridge k (event_for env s) = Raises e
    ∧ (∀ i s', i < k → subreddits !! i = Some s' →
               ∃ r, eventBridge i (event_for env s') = Returns r)
    ∧ calls (publishSubReddits env eventBridge subreddits st).2
      = calls st
        ++ (PutEventsCall <$> (event_for env <$> take (S k) subreddits)).
Proof.
  intros Hfresh. rewrite publishSubReddits_run. cbn zeta. cbn [fst snd calls].
  rewrite Hfresh. cbn [length]. intros Hfirst.
  destruct (first_raise_raises_inv env eventBridge subreddits 0 e Hfirst)
    as (k & s & Hk & Hraise & Hbefore).
  exists k, s. split_and!; [done..|].
  by destruct (attempted_raise_at env eventBridge subreddits 0 k s e)
    as (-> & _ & _).
Qed.

Lemma publishSubReddits_raises_bus_error_witness :
  ∃ k s,
    three_subreddits !! k = Some s
    ∧ throttled_bus k (event_for scenario_env s)
      = Raises (JS.AWSError "ThrottlingException" "Rate exceeded")
    ∧ (∀ i s', i < k → three_subreddits !! i = Some s' →
               ∃ r, throttled_bus i (event_for scenario_env s') = Returns r)
    ∧ calls (publishSubReddits scenario_env throttled_bus three_subreddits start).2
      = calls start
        ++ (PutEventsCall
              <$> (event_for scenario_env <$> take (S k) three_subreddits)).
Proof.
  apply (publishSubReddits_raises_bus_error
           scenario_env throttled_bus three_subreddits start);
    reflexivity.
Defined.

(** ** The configured list, read back *)

Lemma join_split sep s : JS.join sep (JS.split sep s) = s.
Proof.
  induction s as [|c rest IH]; [done|]. cbn [JS.split].
  destruct (Ascii.eqb c sep) eqn:Hc.
  - apply Ascii.eqb_eq in Hc as ->.
    destruct (JS.split sep rest) as [|tok toks] eqn:Hsplit.
    { by destruct (split_not_nil sep rest). }
    change (JS.join sep (EmptyString :: tok :: toks))
      with (String sep (JS.join sep (tok :: toks))).
    by rewrite IH.
  - destruct (JS.split sep rest) as [|tok toks] eqn:Hsplit.
    { by destruct (split_not_nil sep rest). }
    rewrite <- IH. by destruct toks.
Qed.

Lemma split_tokens_free sep s :
  Forall (λ tok, JS.includes sep tok = false) (JS.split sep s).
Proof.
  induction s as [|c rest IH]; [by repeat constructor|]. cbn [JS.split].
  destruct (Ascii.eqb c sep) eqn:Hc; [by constructor|].
  destruct (JS.split sep rest) as [|tok toks]; [by repeat constructor; cbn; rewrite Hc|].
  apply Forall_cons in IH as [Htok Htoks].
  constructor; [|done]. cbn. by rewrite Hc, Htok.
Qed.

Lemma length_split sep s : length (JS.split sep s) = S (JS.count sep s).
Proof.
  induction s as [|c rest IH]; [done|]. cbn [JS.split JS.count].
  destruct (Ascii.eqb c sep); [cbn; by rewrite IH|].
  destruct (JS.split sep rest) as [|tok toks]; [done|]. cbn in *. lia.
Qed.

(** With the switch off and a configured string that is not empty, the list
    produced holds strings only; none of them holds a comma, joining them
    with commas gives the configured string back, and there is one more of
    them than there are commas in the string, so at least one. *)
Theorem getSubRedditList_static_round_trip
    (env : gmap string string)
    (ddb : ScanInput → outcome ScanOutput) (st : state)
    (followed : string) :
  env !! "READ_SUBREDDITS_FROM_DDB" ≠ Some "TRUE" →
  env !! "SUBREDDITS_TO_FOLLOW" = Some followed →
  followed ≠ EmptyString →
  ∃ toks,
    (getSubRedditList env ddb st).1 = Returns (JS.str <$> toks)
    ∧ JS.join "," toks = followed
    ∧ Forall (λ tok, JS.includes "," tok = false) toks
    ∧ length toks = S (JS.count "," followed).
Proof.
  intros Hoff Hfollowed Hne.
  rewrite (getSubRedditList_static env ddb st Hoff), Hfollowed.
  destruct followed as [|c rest]; [done|].
  exists (JS.split "," (String c rest)). split_and!.
  - done.
  - apply join_split.
  - apply split_tokens_free.
  - apply length_split.
Qed.

Lemma getSubRedditList_static_round_trip_witness :
  ∃ toks,
    (getSubRedditList commas_env failing_ddb start).1 = Returns (JS.str <$> toks)
    ∧ JS.join "," toks = "a,,b,"
    ∧ Forall (λ tok, JS.includes "," tok = false) toks
    ∧ length toks = S (JS.count "," "a,,b,").
Proof.
  apply (getSubRedditList_static_round_trip commas_env failing_ddb start "a,,b,");
    [discriminate | reflexivity | discriminate].
Defined.

(** ** Rows that do not hold a string in the attribute *)

Lemma array_map_missing_attribute (rows : list (gmap string AttributeValue)) item :
  item ∈ rows → item !! "SUB_REDDIT" = None →
  array_map item_SUB_REDDIT_S rows = Raises (JS.TypeError_reading "S").
Proof.
  intros Hin Hnone. induction Hin as [item rows|item item' rows Hin IH].
  - cbn. unfold item_SUB_REDDIT_S at 1. by rewrite Hnone.
  - cbn. destruct (item_SUB_REDDIT_S item') as [v|e] eqn:Hv.
    + by rewrite (IH Hnone).
    + unfold item_SUB_REDDIT_S in Hv.
      destruct (item' !! "SUB_REDDIT"); [done|]. by injection Hv as <-.
Qed.

(** With the switch on, when one row of the scan does not hold the
    attribute, the provider raises the type error of the read, whatever the
    other rows hold; an invocation with the required variables set then
    raises it too, after its one scan call and without any put call, and
    the error is the last line written. *)
Theorem handler_row_without_attribute
    (env : gmap string string)
    (eventBridge : nat → PutEventsRequest → outcome PutEventsResponse)
    (ddb : ScanInput → outcome ScanOutput) (st : state)
    (out : ScanOutput) (item : gmap string AttributeValue) :
  env !! "READ_SUBREDDITS_FROM_DDB" = Some "TRUE" →
  ddb {| TableName := env !! "SOURCE_DDB_TABLE" |} = Returns out →
  item ∈ Items out →
  item !! "SUB_REDDIT" = None →
  (getSubRedditList env ddb st).1 = Raises (JS.TypeError_reading "S")
  ∧ (env_is_set env →
     ∃ st',
       handler env eventBridge ddb st = (Raises (JS.TypeError_reading "S"), st')
       ∧ calls st' =
           calls st ++ [ScanCall {| TableName := env !! "SOURCE_DDB_TABLE" |}]
       ∧ last (console st') = Some (error_ddb (JS.TypeError_reading "S"))).
Proof.
  intros Hon Hscan Hin Hnone.
  pose proof (getSubRedditList_table env ddb st Hon) as Hlist.
  cbn zeta in Hlist. rewrite Hscan in Hlist.
  rewrite (array_map_missing_attribute _ _ Hin Hnone) in Hlist.
  split; [by rewrite Hlist|]. intros Hset.
  eexists. rewrite (handler_run env eventBridge ddb st Hset), Hlist.
  split_and!; [done..|]. cbn [console]. by rewrite last_snoc.
Qed.

Lemma handler_row_without_attribute_witness :
  (getSubRedditList table_env (λ _, Returns {| Items := rows_with_gap |}) start).1
  = Raises (JS.TypeError_reading "S")
  ∧ (env_is_set table_env →
     ∃ st',
       handler table_env accepting_bus
         (λ _, Returns {| Items := rows_with_gap |}) start
       = (Raises (JS.TypeError_reading "S"), st')
       ∧ calls st' =
           calls start
           ++ [ScanCall {| TableName := table_env !! "SOURCE_DDB_TABLE" |}]
       ∧ last (console st') = Some (error_ddb (JS.TypeError_reading "S"))).
Proof.
  apply (handler_row_without_attribute
           table_env accepting_bus (λ _, Returns {| Items := rows_with_gap |})
           start {| Items := rows_with_gap |} {[ "NAME" := AttrS "aws" ]}).
  - reflexivity.
  - reflexivity.
  - apply list_elem_of_further, list_elem_of_here.
  - reflexivity.
Defined.

(** A row whose attribute is not a string (a number, a boolean, a null)
    gives the missing identifier, and the event published for it has a
    detail without a name member. *)
Theorem non_string_attribute_event
    (env : gmap string string)
    (item : gmap string AttributeValue) (attr : AttributeValue) :
  item !! "SUB_REDDIT" = Some attr →
  (∀ s, attr ≠ AttrS s) →
  item_SUB_REDDIT_S item = Returns JS.undefined
  ∧ Detail <$> Entries (event_for env JS.undefined)
    = [JS.dq "{'type':'subreddit'}"].
Proof.
  intros Hattr Hnot. split; [|reflexivity].
  unfold item_SUB_REDDIT_S. rewrite Hattr.
  destruct attr as [s| | |]; [by destruct (Hnot s)|done..].
Qed.

Lemma non_string_attribute_event_witness :
  item_SUB_REDDIT_S {[ "SUB_REDDIT" := AttrN "42" ]} = Returns JS.undefined
  ∧ Detail <$> Entries (event_for scenario_env JS.undefined)
    = [JS.dq "{'type':'subreddit'}"].
Proof.
  apply (non_string_attribute_event
           scenario_env {[ "SUB_REDDIT" := AttrN "42" ]} (AttrN "42")).
  - reflexivity.
  - discriminate.
Defined.

(** ** The invocation, end to end *)

(** With the required variables set and the switch on, when the scan
    returns rows that all hold the attribute and no put call raises, the
    invocation returns after one scan call followed by one put call per
    row, in the order of the rows, a row met twice being published
    twice. *)
Theorem handler_table_publishes
    (env : gmap string string)
    (eventBridge : nat → PutEventsRequest → outcome PutEventsResponse)
    (ddb : ScanInput → outcome ScanOutput) (st : state)
    (out : ScanOutput) :
  env_is_set env →
  env !! "READ_SUBREDDITS_FROM_DDB" = Some "TRUE" →
  ddb {| TableName := env !! "SOURCE_DDB_TABLE" |} = Returns out →
  Forall (λ item, is_Some (item !! "SUB_REDDIT")) (Items out) →
  put_requests (calls st) = [] →
  (∀ i item, Items out !! i = Some item →
             ∃ r, eventBridge i (event_for env (SUB_REDDIT_S item)) = Returns r) →
  ∃ st',
    handler env eventBridge ddb st = (Returns (), st')
    ∧ calls st' =
        calls st
        ++ ScanCall {| TableName := env !! "SOURCE_DDB_TABLE" |}
           :: (PutEventsCall
                 <$> (event_for env <$> (SUB_REDDIT_S <$> Items out))).
Proof.
  intros Hset Hon Hscan Hrows Hfresh Hret.
  pose proof (getSubRedditList_table env ddb st Hon) as Hlist.
  cbn zeta in Hlist. rewrite Hscan, (array_map_projection _ Hrows) in Hlist.
  rewrite (handler_run env eventBridge ddb st Hset), Hlist.
  rewrite publishSubReddits_run. cbn zeta. cbn [calls console].
  rewrite put_requests_snoc_scan, Hfresh. cbn [length].
  destruct (attempted_all_return env eventBridge (SUB_REDDIT_S <$> Items out) 0)
    as [Hatt Hfirst].
  { intros i s Hi. rewrite list_lookup_fmap in Hi.
    destruct (Items out !! i) as [item|] eqn:Hitem; [|done].
    injection Hi as <-. by apply Hret. }
  rewrite Hatt, Hfirst. eexists. split; [done|].
  cbn [calls]. by rewrite <- app_assoc.
Qed.

Lemma handler_table_publishes_witness :
  ∃ st',
    handler table_env accepting_bus table_ddb start = (Returns (), st')
    ∧ calls st' =
        calls start
        ++ ScanCall {| TableName := table_env !! "SOURCE_DDB_TABLE" |}
           :: (PutEventsCall
                 <$> (event_for table_env
                        <$> (SUB_REDDIT_S <$> scanned_rows))).
Proof.
  apply (handler_table_publishes
           table_env accepting_bus table_ddb start {| Items := scanned_rows |}).
  - by split_and!.
  - reflexivity.
  - reflexivity.
  - repeat constructor; eexists; reflexivity.
  - reflexivity.
  - intros i item _. eexists. reflexivity.
Defined.

(** With the required variables set, the switch off and no configured
    string (unset or empty), the invocation raises the error of the missing
    source and leaves the calls and the console as they were. *)
Theorem handler_no_source
    (env : gmap string string)
    (eventBridge : nat → PutEventsRequest → outcome PutEventsResponse)
    (ddb : ScanInput → outcome ScanOutput) (st : state) :
  env_is_set env →
  env !! "READ_SUBREDDITS_FROM_DDB" ≠ Some "TRUE" →
  missing_or_empty (env !! "SUBREDDITS_TO_FOLLOW") →
  handler env eventBridge ddb st = (Raises (JS.Error no_source_message), st).
Proof.
  intros Hset Hoff Hmissing.
  rewrite (handler_run env eventBridge ddb st Hset).
  rewrite (getSubRedditList_static env ddb st Hoff).
  by destruct Hmissing as [-> | ->].
Qed.

Lemma handler_no_source_witness :
  handler no_list_env accepting_bus table_ddb start
  = (Raises (JS.Error no_source_message), start).
Proof.
  apply (handler_no_source no_list_env accepting_bus table_ddb start).
  - by split_and!.
  - discriminate.
  - left. reflexivity.
Defined.

(** With the required variables set, the switch off and a configured string
    that is not empty, the invocation always attempts the put call of the
    first token, whatever the bus replies: the configured list never leads
    to an invocation without a put call. *)
Theorem handler_static_first_put
    (env : gmap string string)
    (eventBridge : nat → PutEventsRequest → outcome PutEventsResponse)
    (ddb : ScanInput → outcome ScanOutput) (st : state)
    (followed : string) :
  env_is_set env →
  env !! "READ_SUBREDDITS_FROM_DDB" ≠ Some "TRUE" →
  env !! "SUBREDDITS_TO_FOLLOW" = Some followed →
  followed ≠ EmptyString →
  ∃ tok toks later,
    JS.split "," followed = tok :: toks
    ∧ put_requests (calls (handler env eventBridge ddb st).2)
      = put_requests (calls st) ++ event_for env (JS.str tok) :: later.
Proof.
  intros Hset Hoff Hfollowed Hne.
  rewrite (handler_run env eventBridge ddb st Hset).
  rewrite (getSubRedditList_static env ddb st Hoff), Hfollowed.
  destruct followed as [|c rest]; [done|].
  destruct (JS.split "," (String c rest)) as [|tok toks] eqn:Hsplit.
  { by destruct (split_not_nil "," (String c rest)). }
  exists tok, toks. rewrite publishSubReddits_run. cbn zeta.
  cbn [snd calls fmap list_fmap attempted].
  eexists. split; [done|].
  exact (put_requests_snoc_all (calls st) (event_for env (JS.str tok) :: _)).
Qed.

Lemma handler_static_first_put_witness :
  ∃ tok toks later,
    JS.split "," "a,,b," = tok :: toks
    ∧ put_requests
        (calls (handler commas_env
                  (λ _ _, Raises (JS.AWSError "AccessDeniedException" "denied"))
                  failing_ddb start).2)
      = put_requests (calls start) ++ event_for commas_env (JS.str tok) :: later.
Proof.
  apply (handler_static_first_put commas_env
           (λ _ _, Raises (JS.AWSError "AccessDeniedException" "denied"))
           failing_ddb start "a,,b,").
  - by split_and!.
  - discriminate.
  - reflexivity.
  - discriminate.
Defined.

Lemma handler_check_fails env eventBridge ddb st e :
  checkEnvSetup env st = (Raises e, st) →
  handler env eventBridge ddb st = (Raises e, st).
Proof. intros Hcheck. unfold handler, mbind, M_bind. by rewrite Hcheck. Qed.

(** Whatever the configuration, the table and the bus do, the calls of an
    invocation are at most one scan call, made on the configured table and
    only with the required variables set and the switch on, followed by put
    calls that each carry the event of some identifier; no call is made when
    a required variable is not set. *)
Theorem handler_calls_shape
    (env : gmap string string)
    (eventBridge : nat → PutEventsRequest → outcome PutEventsResponse)
    (ddb : ScanInput → outcome ScanOutput) (st : state) :
  ∃ scans subreddits,
    calls (handler env eventBridge ddb st).2
    = calls st ++ (ScanCall <$> scans)
      ++ (PutEventsCall <$> (event_for env <$> subreddits))
    ∧ (scans = []
       ∨ scans = [{| TableName := env !! "SOURCE_DDB_TABLE" |}]
         ∧ env_is_set env
         ∧ env !! "READ_SUBREDDITS_FROM_DDB" = Some "TRUE")
    ∧ (¬ env_is_set env → scans = [] ∧ subreddits = []).
Proof.
  destruct (JS.truthy (env !! "EVENT_BUS_NAME")) eqn:Hbus;
    destruct (JS.truthy (env !! "SUBREDDIT_PUBLISH_NAMESPACE")) eqn:Hns;
    destruct (JS.truthy (env !! "SOURCE_DDB_TABLE")) eqn:Htable.
  2-8: exists [], [];
       rewrite (handler_check_fails env eventBridge ddb st
                  (JS.Error env_not_set_message))
         by (unfold checkEnvSetup; by rewrite Hbus, Hns, Htable);
       cbn; rewrite app_nil_r; by split_and!; [|left|].
  assert (Hset : env_is_set env) by done.
  rewrite (handler_run env eventBridge ddb st Hset).
  destruct (decide (env !! "READ_SUBREDDITS_FROM_DDB" = Some "TRUE"))
    as [Hon|Hoff].
  - rewrite (getSubRedditList_table env ddb st Hon). cbn zeta.
    exists [{| TableName := env !! "SOURCE_DDB_TABLE" |}].
    destruct (ddb _) as [out|e].
    + destruct (array_map item_SUB_REDDIT_S (Items out)) as [l|e].
      * rewrite publishSubReddits_run. cbn zeta. cbn [snd calls].
        eexists. rewrite <- app_assoc. split_and!; [done|by right|done].
      * exists []. cbn. split_and!; [done|by right|done].
    + exists []. cbn. split_and!; [done|by right|done].
  - rewrite (getSubRedditList_static env ddb st Hoff). exists [].
    destruct (env !! "SUBREDDITS_TO_FOLLOW") as [[|c rest]|].
    + exists []. cbn. rewrite app_nil_r. split_and!; [done|by left|done].
    + rewrite publishSubReddits_run. cbn zeta. cbn [snd calls].
      eexists. split_and!; [done|by left|done].
    + exists []. cbn. rewrite app_nil_r. split_and!; [done|by left|done].
Qed.

(** ** Publishing in two runs *)

(** Publishing a list in two consecutive runs of the publisher, the first
    part and then the rest, does what one run on the whole list does: same
    outcome, same calls and same console, the second run being skipped when
    the first one raises. *)
Theorem publishSubReddits_app
    (env : gmap string string)
    (eventBridge : nat → PutEventsRequest → outcome PutEventsResponse)
    (first_part rest : list JS.value) (st : state) :
  publishSubReddits env eventBridge (first_part ++ rest) st
  = (publishSubReddits env eventBridge first_part;;
     publishSubReddits env eventBridge rest) st.
Proof.
  revert st. unfold publishSubReddits.
  induction first_part as [|s first_part IH]; intros st; [done|].
  cbn [app for_of]. unfold mbind, M_bind in *.
  destruct (try_catch _ _ st) as [[[]|e] st1]; [|done].
  by rewrite IH.
Qed.

(** ** What a successful invocation tells *)

(** The provider makes no put call. *)
Lemma getSubRedditList_no_put env ddb st :
  put_requests (calls (getSubRedditList env ddb st).2) = put_requests (calls st).
Proof.
  destruct (decide (env !! "READ_SUBREDDITS_FROM_DDB" = Some "TRUE"))
    as [Hon|Hoff].
  - rewrite (getSubRedditList_table env ddb st Hon). cbn zeta.
    destruct (ddb _); cbn [snd calls]; by rewrite put_requests_snoc_scan.
  - rewrite (getSubRedditList_static env ddb st Hoff).
    by destruct (env !! "SUBREDDITS_TO_FOLLOW") as [[|c rest]|].
Qed.

(** When an invocation started without earlier put calls returns, the
    three required variables were set, the provider returned a list, and
    the put calls made are the events of that whole list in order, none of
    which raised. *)
Theorem handler_returns_inv
    (env : gmap string string)
    (eventBridge : nat → PutEventsRequest → outcome PutEventsResponse)
    (ddb : ScanInput → outcome ScanOutput) (st : state) :
  put_requests (calls st) = [] →
  (handler env eventBridge ddb st).1 = Returns () →
  env_is_set env
  ∧ ∃ subreddits,
      (getSubRedditList env ddb st).1 = Returns subreddits
      ∧ put_requests (calls (handler env eventBridge ddb st).2)
        = event_for env <$> subreddits
      ∧ ∀ i s, subreddits !! i = Some s →
               ∃ r, eventBridge i (event_for env s) = Returns r.
Proof.
  intros Hfresh Hret.
  assert (Hset : env_is_set env).
  { unfold handler, mbind, M_bind, checkEnvSetup, env_is_set in *.
    destruct (JS.truthy (env !! "EVENT_BUS_NAME"));
      destruct (JS.truthy (env !! "SUBREDDIT_PUBLISH_NAMESPACE"));
      destruct (JS.truthy (env !! "SOURCE_DDB_TABLE")); done. }
  split; [done|].
  rewrite (handler_run env eventBridge ddb st Hset) in Hret |- *.
  pose proof (getSubRedditList_no_put env ddb st) as Hput.
  destruct (getSubRedditList env ddb st) as [[subreddits|e] st1]; [|done].
  cbn [snd] in Hput. rewrite Hfresh in Hput.
  exists subreddits. split; [done|].
  rewrite publishSubReddits_run in Hret |- *. cbn zeta in *.
  rewrite Hput in *. cbn [fst snd calls length] in *.
  pose proof (first_raise_returns_inv env eventBridge subreddits 0 Hret) as Hall.
  destruct (attempted_all_return env eventBridge subreddits 0 Hall) as [-> _].
  split; [|done]. by rewrite put_requests_snoc_all, Hput.
Qed.

Lemma handler_returns_inv_witness :
  env_is_set table_env
  ∧ ∃ subreddits,
      (getSubRedditList table_env table_ddb start).1 = Returns subreddits
      ∧ put_requests (calls (handler table_env rejecting_second_bus table_ddb start).2)
        = event_for table_env <$> subreddits
      ∧ ∀ i s, subreddits !! i = Some s →
               ∃ r, rejecting_second_bus i (event_for table_env s) = Returns r.
Proof.
  apply (handler_returns_inv table_env rejecting_second_bus table_ddb start);
    reflexivity.
Defined.
